(** * The [Tool] class and the [tool] decorator of the agents-course notebook

    A shallow embedding of the one code cell of [Huggingface-course.ipynb]
    that defines [class Tool] ([__init__], [to_string], [__call__]) and the
    decorator [tool], followed by the properties its specification states.

    Python objects live in a heap: a [Tool] instance is a location whose
    attribute dictionary maps "name", "description", "func", "arguments"
    and "outputs" to values.  A callable runs against the whole heap, as a
    Python function body does against the program state. *)

From Stdlib Require Import ZArith String Ascii List DecimalString.
From stdpp Require Import base option gmap strings list fin_maps.

Local Open Scope string_scope.

(** ** Values *)

(** What [inspect] reports for an annotation.  [_empty] is the marker
    class [inspect._empty] ([Parameter.empty] and [Signature.empty] are
    the same object); it is a class, hence it has a [__name__].  [Named]
    is any other object with a [__name__] attribute (a class such as
    [int]) that stands in the signature under that very name; [Unnamed]
    is an object without one (a string annotation, [None]), known by what
    [str] gives for it.  [Aliased] is an object with a [__name__] that
    stands in the signature as a longer text: the parameterised generic
    [list[int]] has the [__name__] of [list]. *)
Inductive annot : Type :=
| _empty
| Named (__name__ : string)
| Unnamed (text : string)
| Aliased (__name__ : string) (text : string).

(** [inspect.Parameter] ([Param] here, the other name being a keyword of
    the prover): the two attributes the decorator reads. *)
Record Param : Type := { name : string; annotation : annot }.

(** [inspect.Signature]. *)
Record Signature : Type :=
  { parameters : list Param; return_annotation : annot }.

(** Why [inspect.signature] gives no signature: the object is of a kind
    it does not support or carries a [__signature__] that is no signature
    (it raises TypeError), or no signature can be found for it (it raises
    ValueError). *)
Inductive reflection_failure : Type :=
| not_supported
| no_signature.

(** A callable object as the decorator sees it.  [__name__] is [None] for
    a callable without that attribute (a [functools.partial]);
    [__doc__] is [None] when there is no docstring; [signature] is [None]
    when [inspect.signature] raises, and [reflection] then says what it
    raises; [__code__] names the body in the code table of the
    runtime. *)
Record callable : Type :=
  { __name__ : option string;
    __doc__ : option string;
    signature : option Signature;
    reflection : reflection_failure;
    __code__ : nat }.

(** The values the class handles: what a caller may pass to the
    constructor or to a call, and what a callable returns.  Integers are
    unbounded; a string is its sequence of characters. *)
#[warnings="-register-all"]
Inductive value : Type :=
| VNone
| VBool (b : bool)
| VInt (z : Z)
| VStr (s : string)
| VTuple (items : list value)
| VList (items : list value)
| VFunc (f : callable).

(** Exceptions: those the interpreter raises in this code (their
    messages are not modelled) and whatever a callable raises. *)
Inductive exn : Type :=
| TypeError
| ValueError
| AttributeError
| OverflowError
| MemoryError
| Raised (cls : string) (args : list value).

(** The outcome of an expression: a value, or an exception on its way
    up. *)
Inductive result (A : Type) : Type :=
| Ok (a : A)
| Raise (e : exn).
Arguments Ok {A} a.
Arguments Raise {A} e.

#[global] Instance result_ret : MRet result := fun A a => Ok a.
#[global] Instance result_bind : MBind result :=
  fun A B k r => match r with Ok a => k a | Raise e => Raise e end.

(** ** The heap *)

(** An object is its attribute dictionary; the heap maps the locations
    in use to their objects. *)
Abbreviation loc := positive.
Abbreviation object := (gmap string value).
Abbreviation heap := (gmap loc object).

(** The body of a callable: positional arguments, keyword arguments (in
    call order) and the heap in; outcome and heap out. *)
Definition behaviour : Type :=
  list value -> list (string * value) -> heap -> result value * heap.

(** [o.attr]: an [AttributeError] when the object has no such
    attribute. *)
Definition getattr (h : heap) (o : loc) (attr : string) : result value :=
  match h !! o ≫= (fun d : object => d !! attr) with
  | Some v => Ok v
  | None => Raise AttributeError
  end.

(** [o.attr = v]. *)
Definition setattr (o : loc) (attr : string) (v : value) (h : heap) : heap :=
  alter (fun d : object => <[attr := v]> d) o h.

(** ** Built-ins used by the class *)

(** [sep.join(parts)]. *)
Fixpoint join (sep : string) (parts : list string) : string :=
  match parts with
  | [] => EmptyString
  | [p] => p
  | p :: rest => p ++ sep ++ join sep rest
  end.

(** A string is held as its UTF-8 bytes; its characters are the code
    points: a byte that is not a continuation byte, with the continuation
    bytes that follow it. *)
Definition is_continuation (c : ascii) : bool :=
  (128 <=? nat_of_ascii c)%nat && (nat_of_ascii c <? 192)%nat.

Fixpoint code_points (s : string) : list string :=
  match s with
  | EmptyString => []
  | String c rest =>
      let chunks := code_points rest in
      match rest, chunks with
      | String d _, chunk :: more =>
          if is_continuation d then String c chunk :: more
          else String c EmptyString :: chunks
      | _, _ => String c EmptyString :: chunks
      end
  end.

(** Iteration: lists and tuples give their items, a string its
    characters; nothing else in [value] is iterable. *)
Definition iter (v : value) : result (list value) :=
  match v with
  | VList items | VTuple items => Ok items
  | VStr s => Ok (map VStr (code_points s))
  | _ => Raise TypeError
  end.

(** A call names each keyword once: a keyword given twice is a TypeError
    before anything is called. *)
Fixpoint distinct (keys : list string) : bool :=
  match keys with
  | [] => true
  | k :: rest => negb (existsb (String.eqb k) rest) && distinct rest
  end.

(** Whether a keyword argument is named [self]. *)
Definition names_self (kwargs : list (string * value)) : bool :=
  existsb (fun kv : string * value => String.eqb kv.1 "self") kwargs.

(** The default of [sys.get_int_max_str_digits()]: converting an integer
    of more decimal digits to text raises ValueError. *)
Definition int_max_str_digits : Z := 4300.

Definition str_of_int (z : Z) : result string :=
  if (Z.abs z <? 10 ^ int_max_str_digits)%Z
  then Ok (NilZero.string_of_int (Z.to_int z))
  else Raise ValueError.

(** [arg_name, arg_type = item]: unpacking into exactly two targets. *)
Definition unpack2 (item : value) : result (value * value) :=
  match iter item with
  | Ok [a; b] => Ok (a, b)
  | Ok _ => Raise ValueError
  | Raise e => Raise e
  end.

(** A list comprehension over [l]: the outcomes of [f] in order, or the
    first exception. *)
Fixpoint for_each {A B : Type} (f : A -> result B) (l : list A)
  : result (list B) :=
  match l with
  | [] => Ok []
  | x :: rest => y ← f x; ys ← for_each f rest; Ok (y :: ys)
  end.

Section Runtime.

(** [repr] of containers and function objects is the interpreter's own
    (quoting rules, memory addresses); it is [None] when the text would
    hold an integer beyond the digit limit, the one way it raises, with
    ValueError.  [code] is the table of function bodies. *)
Variable repr : value -> option string.
Variable code : nat -> behaviour.

(** What an f-string field [{v}] inserts: [format(v)] with no format
    specification, that is [str(v)]. *)
Definition str (v : value) : result string :=
  match v with
  | VStr s => Ok s
  | VNone => Ok "None"
  | VBool true => Ok "True"
  | VBool false => Ok "False"
  | VInt z => str_of_int z
  | _ => match repr v with Some s => Ok s | None => Raise ValueError end
  end.

(** Calling a value [f] with positional and keyword arguments. *)
Definition call (f : value) : behaviour :=
  fun args kwargs h =>
    if distinct (map fst kwargs) then
      match f with
      | VFunc c => code (__code__ c) args kwargs h
      | _ => (Raise TypeError, h)
      end
    else (Raise TypeError, h).

(** ** class Tool *)

(** Five attribute assignments, in the order of the source. *)
Definition __init__ (self : loc)
  (name description func arguments outputs : value) (h : heap) : heap :=
  setattr self "outputs" outputs
    (setattr self "arguments" arguments
      (setattr self "func" func
        (setattr self "description" description
          (setattr self "name" name h)))).

(** [Tool(name, description, func, arguments, outputs)]: a new object,
    then [__init__] on it. *)
Definition Tool (name description func arguments outputs : value) (h : heap)
  : loc * heap :=
  let self := fresh (dom h) in
  (self, __init__ self name description func arguments outputs (<[self := ∅]> h)).

(** One element of the list comprehension of [to_string]: the entry is
    unpacked into two, and the f-string formats the first, then the
    second. *)
Definition format_argument (item : value) : result string :=
  '(arg_name, arg_type) ← unpack2 item;
  arg_name ← str arg_name;
  arg_type ← str arg_type;
  Ok (arg_name ++ ": " ++ arg_type).

(** [to_string] reads the heap and never writes it.  The attributes are
    read in the order the source evaluates them: [self.arguments] for
    [args_str] first, then the fields of the f-string, each formatted as
    soon as it is read. *)
Definition to_string (h : heap) (self : loc) : result string :=
  arguments ← getattr h self "arguments";
  items ← iter arguments;
  parts ← for_each format_argument items;
  let args_str := join ", " parts in
  name ← getattr h self "name";
  name ← str name;
  description ← getattr h self "description";
  description ← str description;
  outputs ← getattr h self "outputs";
  outputs ← str outputs;
  Ok ("Tool Name: " ++ name ++ ","
      ++ " Description: " ++ description ++ ","
      ++ " Arguments: " ++ args_str ++ ","
      ++ " Outputs: " ++ outputs).

(** The header binds the Tool to the parameter [self] and collects the
    rest, so a keyword named [self] is a second value for that parameter:
    a TypeError before the body runs.  The body is one statement: return
    what calling [self.func] with the same positional and keyword
    arguments gives. *)
Definition __call__ (self : loc) : behaviour :=
  fun args kwargs h =>
    if negb (distinct (map fst kwargs)) || names_self kwargs
    then (Raise TypeError, h)
    else
      match getattr h self "func" with
      | Ok func => call func args kwargs h
      | Raise e => (Raise e, h)
      end.

(** ** The decorator *)

(** [param.annotation.__name__ if hasattr(param.annotation, '__name__')
    else str(param.annotation)], and the same expression on the return
    annotation.  The marker class has the attribute too. *)
Definition annotation_name (a : annot) : string :=
  match a with
  | _empty => "_empty"
  | Named n => n
  | Unnamed text => text
  | Aliased n _ => n
  end.

(** [doc or default]: [None] and the empty string are both false. *)
Definition or_default (doc : option string) (default : string) : string :=
  match doc with
  | Some (String c rest) => String c rest
  | Some EmptyString | None => default
  end.

(** The decorator, statement by statement: the signature (or the
    TypeError or ValueError of [inspect.signature]), the argument pairs, the outputs
    label, the description, the name (or the [AttributeError] of
    [func.__name__]), then the constructor. *)
Definition tool (func : callable) (h : heap) : result loc * heap :=
  match signature func with
  | None =>
      (Raise match reflection func with
             | not_supported => TypeError
             | no_signature => ValueError
             end, h)
  | Some sig =>
      let arguments :=
        map (fun param =>
               VTuple [VStr (name param);
                       VStr (annotation_name (annotation param))])
            (parameters sig) in
      let outputs :=
        match return_annotation sig with
        | _empty => "No return annotation"
        | return_annotation => annotation_name return_annotation
        end in
      let description := or_default (__doc__ func) "No description provided." in
      match __name__ func with
      | None => (Raise AttributeError, h)
      | Some name =>
          let '(self, h') :=
            Tool (VStr name) (VStr description) (VFunc func)
                 (VList arguments) (VStr outputs) h in
          (Ok self, h')
      end
  end.

(** ** Sequences of public operations on one descriptor *)




End Runtime.

(** ** The rendering as the specification words it *)

(** "Tool Name: {name}, Description: {description}, Arguments:
    {arg1_name}: {arg1_type}, ..., Outputs: {output_type_label}", the
    argument pairs joined with ", ". *)
Definition render_template (name description : string)
  (params : list (string * string)) (output_type_label : string) : string :=
  "Tool Name: " ++ name ++ ", Description: " ++ description
  ++ ", Arguments: "
  ++ String.concat ", " (map (fun p => p.1 ++ ": " ++ p.2) params)
  ++ ", Outputs: " ++ output_type_label.

(** A ParameterSpec as the class holds it: a (name, type label) pair. *)
Definition ParameterSpec (p : string * string) : value :=
  VTuple [VStr p.1; VStr p.2].

(** The object at [self] is a ToolDescriptor of the data model: string
    metadata and a list of ParameterSpecs. *)
Definition is_descriptor (h : heap) (self : loc) (name description : string)
  (params : list (string * string)) (output_type_label : string) : Prop :=
  getattr h self "name" = Ok (VStr name)
  /\ getattr h self "description" = Ok (VStr description)
  /\ getattr h self "arguments" = Ok (VList (map ParameterSpec params))
  /\ getattr h self "outputs" = Ok (VStr output_type_label).

(** The ParameterSpec data of a declared parameter, and the label of a
    return annotation, both as section 4.2 of the specification words
    them. *)
Definition labelled (p : Param) : string * string :=
  (name p, annotation_name (annotation p)).

Definition output_label (a : annot) : string :=
  match a with
  | _empty => "No return annotation"
  | a => annotation_name a
  end.

(** The fields of the object at [self], in the order of the data model. *)
Definition fields (h : heap) (self : loc) : list (result value) :=
  map (getattr h self) ["name"; "description"; "arguments"; "outputs"; "func"].

(** An annotation as it stands in the function's signature, in full. *)
Definition annotation_text (a : annot) : string :=
  match a with
  | _empty => EmptyString
  | Named n => n
  | Unnamed text => text
  | Aliased _ text => text
  end.

(** A parameter as the function declares it: its name and its
    annotation in full. *)
Definition declared (p : Param) : string * string :=
  (name p, annotation_text (annotation p)).

(** The round trip the specification asks of a function with name [n],
    documentation string [d] and signature [sig]: the decorator succeeds
    and the rendering of its Tool is the template filled with those
    values as the function states them. *)
Definition round_trip (repr : value -> option string) (func : callable)
  (h : heap) (n d : string) (sig : Signature) : Prop :=
  exists self,
    (tool func h).1 = Ok self
    /\ to_string repr (tool func h).2 self
       = Ok (render_template n d (map declared (parameters sig))
               (annotation_text (return_annotation sig))).

(** The annotations whose label is their full text: an object without
    [__name__], or one that stands in the signature under its
    [__name__]. *)
Definition plain (a : annot) : bool :=
  match a with
  | Named _ | Unnamed _ => true
  | _empty | Aliased _ _ => false
  end.


(** Whether [s] contains a line feed. *)
Definition has_newline (s : string) : bool :=
  existsb (Ascii.eqb "010"%char) (list_ascii_of_string s).

(** ** Example callables *)

(** Binding of a call's arguments to parameters that are all
    positional-or-keyword and have no defaults: positional arguments
    first, the remaining parameters by keyword; a surplus positional
    argument, an unknown or doubly given keyword, or a missing argument is
    a [TypeError]. *)
Definition bind_arguments (names : list string) (args : list value)
  (kwargs : list (string * value)) : result (list value) :=
  if (length names <? length args)%nat then Raise TypeError
  else
    let rest := drop (length args) names in
    if distinct (map fst kwargs)
       && forallb (fun kv : string * value => existsb (String.eqb kv.1) rest)
            kwargs
    then
      given ← for_each (fun n =>
                 match list_find (fun kv : string * value => kv.1 = n) kwargs with
                 | Some (_, (_, v)) => Ok v
                 | None => Raise TypeError
                 end) rest;
      Ok (args ++ given)%list
    else Raise TypeError.

(** Integers and the booleans that count as integers. *)
Definition as_int (v : value) : option Z :=
  match v with
  | VInt z => Some z
  | VBool b => Some (if b then 1 else 0)%Z
  | _ => None
  end.

Fixpoint repeat_string (n : nat) (s : string) : string :=
  match n with
  | O => EmptyString
  | S k => s ++ repeat_string k s
  end.

(** The largest index of the interpreter, on a 64-bit build. *)
Definition PY_SSIZE_T_MAX : Z := 2 ^ 63 - 1.

(** [seq * n] for a string, list or tuple.  The count has to fit an
    index, whatever its sign; a count of zero or less gives the empty
    sequence; a string of more than [PY_SSIZE_T_MAX] characters is an
    OverflowError and a list or tuple with more entries than can be
    addressed a MemoryError.  Results that fit but exhaust the memory of
    the machine are not modelled. *)
Definition repeat_sequence (v : value) (n : Z) : result value :=
  match v with
  | VStr _ | VList _ | VTuple _ =>
      if ((n <? - PY_SSIZE_T_MAX - 1) || (PY_SSIZE_T_MAX <? n))%Z
      then Raise OverflowError
      else
        match v with
        | VStr s =>
            if (PY_SSIZE_T_MAX <? Z.of_nat (length (code_points s)) * n)%Z
            then Raise OverflowError
            else Ok (VStr (repeat_string (Z.to_nat n) s))
        | VList items =>
            if (PY_SSIZE_T_MAX / 8 <? Z.of_nat (length items) * n)%Z
            then Raise MemoryError
            else Ok (VList (concat (replicate (Z.to_nat n) items)))
        | VTuple items =>
            if (PY_SSIZE_T_MAX / 8 <? Z.of_nat (length items) * n)%Z
            then Raise MemoryError
            else Ok (VTuple (concat (replicate (Z.to_nat n) items)))
        | _ => Raise TypeError
        end
  | _ => Raise TypeError
  end.

(** The operator [a * b]. *)
Definition mul (a b : value) : result value :=
  match as_int a, as_int b with
  | Some x, Some y => Ok (VInt (x * y))
  | Some x, None => repeat_sequence b x
  | None, Some y => repeat_sequence a y
  | None, None => Raise TypeError
  end.

(** [def calculator(a: int, b: int) -> int: return a * b]. *)
Definition calculator_code : behaviour :=
  fun args kwargs h =>
    match bind_arguments ["a"; "b"] args kwargs with
    | Ok [a; b] => (mul a b, h)
    | Ok _ => (Raise TypeError, h)
    | Raise e => (Raise e, h)
    end.

(** [def f(...): pass] with the parameters [names]. *)
Definition pass_code (names : list string) : behaviour :=
  fun args kwargs h =>
    match bind_arguments names args kwargs with
    | Ok _ => (Ok VNone, h)
    | Raise e => (Raise e, h)
    end.

(** [def blank(a): return a]. *)
Definition return_a_code : behaviour :=
  fun args kwargs h =>
    match bind_arguments ["a"] args kwargs with
    | Ok [a] => (Ok a, h)
    | Ok _ => (Raise TypeError, h)
    | Raise e => (Raise e, h)
    end.

(** Where the first object of a program is allocated. *)
Definition first_loc : loc := fresh (dom (∅ : heap)).

(** [def rename(): rename.name = "renamed"], where the global [rename] is
    bound, by the decorator line above the definition, to the Tool made
    from this very function: the first object of the program. *)
Definition rename_code : behaviour :=
  fun args kwargs h =>
    match bind_arguments [] args kwargs with
    | Ok _ => (Ok VNone, setattr first_loc "name" (VStr "renamed") h)
    | Raise e => (Raise e, h)
    end.

(** [def grow(): grow.arguments.append(("extra", "int"))], the global
    [grow] bound to the Tool made from this function, the first object of
    the program.  The list is held by the attribute, so the call changes
    the attribute's value without assigning to it. *)
Definition grow_code : behaviour :=
  fun args kwargs h =>
    match bind_arguments [] args kwargs with
    | Ok _ =>
        match getattr h first_loc "arguments" with
        | Ok (VList items) =>
            (Ok VNone,
             setattr first_loc "arguments"
               (VList (items ++ [VTuple [VStr "extra"; VStr "int"]])%list) h)
        | Ok _ => (Raise AttributeError, h)
        | Raise e => (Raise e, h)
        end
    | Raise e => (Raise e, h)
    end.

(** [def fail(): raise RuntimeError("boom")]. *)
Definition fail_code : behaviour :=
  fun args kwargs h =>
    match bind_arguments [] args kwargs with
    | Ok _ => (Raise (Raised "RuntimeError" [VStr "boom"]), h)
    | Raise e => (Raise e, h)
    end.

Definition example_code (n : nat) : behaviour :=
  match n with
  | 0 => calculator_code
  | 1 => pass_code []
  | 2 => rename_code
  | 3 => fail_code
  | 4 => return_a_code
  | 5 => pass_code ["x"; "y"]
  | 6 => pass_code ["self"]
  | 7 => pass_code ["items"]
  | 8 => grow_code
  | _ => fun _ _ h => (Raise TypeError, h)
  end.

Definition example_repr (v : value) : option string := Some "<object>".

Definition int : annot := Named "int".

Definition two_ints : Signature :=
  {| parameters := [ {| name := "a"; annotation := int |};
                     {| name := "b"; annotation := int |} ];
     return_annotation := int |}.

Definition no_parameters : Signature :=
  {| parameters := []; return_annotation := _empty |}.

(** The function of the notebook's second cell. *)
Definition calculator : callable :=
  {| __name__ := Some "calculator";
     __doc__ := Some "Multiply two integers.";
     signature := Some two_ints;
     reflection := no_signature; __code__ := 0 |}.

(** The same function under the name the specification uses. *)
Definition multiply : callable :=
  {| __name__ := Some "multiply";
     __doc__ := Some "Multiply two integers.";
     signature := Some two_ints;
     reflection := no_signature; __code__ := 0 |}.

(** [def f(): pass]: no parameters, no docstring, no return annotation. *)
Definition f : callable :=
  {| __name__ := Some "f"; __doc__ := None;
     signature := Some no_parameters; reflection := no_signature; __code__ := 1 |}.

(** [def blank(a: int) -> int] whose body is an empty string literal
    followed by [return a]: the docstring is there and is the empty
    string. *)
Definition blank : callable :=
  {| __name__ := Some "blank"; __doc__ := Some EmptyString;
     signature :=
       Some {| parameters := [ {| name := "a"; annotation := int |} ];
               return_annotation := int |};
     reflection := no_signature; __code__ := 4 |}.

(** [def untyped(x, y): pass]. *)
Definition untyped : callable :=
  {| __name__ := Some "untyped"; __doc__ := None;
     signature :=
       Some {| parameters := [ {| name := "x"; annotation := _empty |};
                               {| name := "y"; annotation := _empty |} ];
               return_annotation := _empty |};
     reflection := no_signature; __code__ := 5 |}.

(** [def takes_self(self): pass]: a function whose one parameter is
    called [self]. *)
Definition takes_self : callable :=
  {| __name__ := Some "takes_self"; __doc__ := None;
     signature :=
       Some {| parameters := [ {| name := "self"; annotation := _empty |} ];
               return_annotation := _empty |};
     reflection := no_signature; __code__ := 6 |}.

(** [def count(items: list[int]) -> int], documented, body [pass]. *)
Definition count_items : callable :=
  {| __name__ := Some "count"; __doc__ := Some "Count the items.";
     signature :=
       Some {| parameters :=
                 [ {| name := "items";
                      annotation := Aliased "list" "list[int]" |} ];
               return_annotation := int |};
     reflection := no_signature; __code__ := 7 |}.

(** [def two_lines(): pass] with a docstring of two lines. *)
Definition two_lines : callable :=
  {| __name__ := Some "two_lines";
     __doc__ := Some ("First line." ++ String "010" "Second line.");
     signature := Some no_parameters;
     reflection := no_signature; __code__ := 1 |}.



Definition fail : callable :=
  {| __name__ := Some "fail"; __doc__ := None;
     signature := Some no_parameters; reflection := no_signature; __code__ := 3 |}.

(** ** Shapes of the [arguments] attribute *)

(** An entry that unpacks into the two values of [p]: a tuple or a list
    of exactly these two. *)
Definition pair_item (item : value) (p : value * value) : Prop :=
  item = VTuple [p.1; p.2] \/ item = VList [p.1; p.2].

(** The values of [value] over which a [for] loop cannot run. *)
Definition not_iterable (v : value) : bool :=
  match v with
  | VNone | VBool _ | VInt _ | VFunc _ => true
  | VStr _ | VTuple _ | VList _ => false
  end.

(** The values that are not function objects. *)
Definition not_callable (v : value) : bool :=
  match v with
  | VFunc _ => false
  | _ => true
  end.

(** The pair of values [p] is formatted as the pair of texts [q]. *)
Definition shown (repr : value -> option string) (p : value * value)
  (q : string * string) : Prop :=
  str repr p.1 = Ok q.1 /\ str repr p.2 = Ok q.2.

(** * Properties *)

(** ** Attribute access *)

Lemma getattr_setattr_eq (h : heap) o attr v :
  is_Some (h !! o) -> getattr (setattr o attr v h) o attr = Ok v.
Proof.
  intros [d Hd]. unfold getattr, setattr.
  rewrite lookup_alter_eq, Hd. simpl. by rewrite lookup_insert_eq.
Qed.

Lemma getattr_setattr_ne (h : heap) o attr v o' attr' :
  o <> o' \/ attr <> attr' ->
  getattr (setattr o attr v h) o' attr' = getattr h o' attr'.
Proof.
  intros Hne. unfold getattr, setattr.
  destruct (decide (o = o')) as [<-|Ho].
  - destruct Hne as [?|Hattr]; [done|].
    rewrite lookup_alter_eq. destruct (h !! o) as [d|]; simpl; [|done].
    by rewrite lookup_insert_ne.
  - by rewrite lookup_alter_ne.
Qed.

Lemma setattr_other (h : heap) o attr v o' :
  o <> o' -> setattr o attr v h !! o' = h !! o'.
Proof. intros Ho. unfold setattr. by rewrite lookup_alter_ne. Qed.

Lemma fresh_loc_free (h : heap) : h !! fresh (dom h) = None.
Proof. apply not_elem_of_dom, is_fresh. Qed.

(** ** Construction *)

Lemma Tool_loc n d fn a o (h : heap) : (Tool n d fn a o h).1 = fresh (dom h).
Proof. reflexivity. Qed.

Lemma Tool_object n d fn a o (h : heap) :
  (Tool n d fn a o h).2 !! fresh (dom h)
  = Some (<["outputs" := o]> (<["arguments" := a]> (<["func" := fn]>
            (<["description" := d]> (<["name" := n]> (∅ : object)))))).
Proof.
  unfold Tool, __init__, setattr. simpl.
  by rewrite !lookup_alter_eq, lookup_insert_eq.
Qed.

Lemma Tool_other n d fn a o (h : heap) l :
  l <> fresh (dom h) -> (Tool n d fn a o h).2 !! l = h !! l.
Proof.
  intros Hl. unfold Tool, __init__. simpl.
  rewrite !setattr_other by done. by rewrite lookup_insert_ne.
Qed.

Lemma Tool_getattr n d fn a o (h : heap) :
  let self := fresh (dom h) in
  let h' := (Tool n d fn a o h).2 in
  getattr h' self "name" = Ok n
  /\ getattr h' self "description" = Ok d
  /\ getattr h' self "func" = Ok fn
  /\ getattr h' self "arguments" = Ok a
  /\ getattr h' self "outputs" = Ok o.
Proof.
  intros self h'. unfold getattr. subst self h'. rewrite Tool_object. simpl.
  repeat split; by simplify_map_eq.
Qed.

(** ** The decorator *)

Lemma tool_Ok func sig n (h : heap) :
  signature func = Some sig -> __name__ func = Some n ->
  tool func h
  = (Ok (fresh (dom h)),
     (Tool (VStr n)
           (VStr (or_default (__doc__ func) "No description provided."))
           (VFunc func)
           (VList (map ParameterSpec (map labelled (parameters sig))))
           (VStr (output_label (return_annotation sig))) h).2).
Proof.
  intros Hsig Hname. unfold tool. rewrite Hsig, Hname.
  rewrite map_map. unfold Tool, output_label.
  by destruct (return_annotation sig).
Qed.

Lemma tool_Ok_inv func (h h' : heap) self :
  tool func h = (Ok self, h') ->
  exists sig n, signature func = Some sig /\ __name__ func = Some n.
Proof.
  unfold tool. destruct (signature func) as [sig|]; [|discriminate].
  destruct (__name__ func) as [n|]; [|discriminate]. eauto.
Qed.

Lemma tool_descriptor func sig n (h : heap) :
  signature func = Some sig -> __name__ func = Some n ->
  let self := fresh (dom h) in
  let h' := (tool func h).2 in
  is_descriptor h' self n
    (or_default (__doc__ func) "No description provided.")
    (map labelled (parameters sig))
    (output_label (return_annotation sig))
  /\ getattr h' self "func" = Ok (VFunc func).
Proof.
  intros Hsig Hname self h'. subst self h'.
  rewrite (tool_Ok _ _ _ _ Hsig Hname). cbn [snd].
  match goal with |- context [Tool ?a ?b ?c ?d ?e h] =>
    destruct (Tool_getattr a b c d e h) as (H1 & H2 & H3 & H4 & H5) end.
  unfold is_descriptor. auto.
Qed.

(** ** Rendering *)

Lemma join_concat sep parts : join sep parts = String.concat sep parts.
Proof.
  induction parts as [|p rest IH]; [reflexivity|].
  destruct rest as [|q rest]; [reflexivity|].
  change (p ++ sep ++ join sep (q :: rest)
          = p ++ sep ++ String.concat sep (q :: rest)).
  by rewrite IH.
Qed.

Lemma unpack2_ParameterSpec p :
  unpack2 (ParameterSpec p) = Ok (VStr p.1, VStr p.2).
Proof. reflexivity. Qed.

Lemma format_argument_ParameterSpec repr p :
  format_argument repr (ParameterSpec p) = Ok (p.1 ++ ": " ++ p.2).
Proof. reflexivity. Qed.

Lemma for_each_ParameterSpec repr params :
  for_each (format_argument repr) (map ParameterSpec params)
  = Ok (map (fun p => p.1 ++ ": " ++ p.2) params).
Proof.
  induction params as [|p rest IH]; [reflexivity|].
  cbn [map for_each]. by rewrite IH, format_argument_ParameterSpec.
Qed.

Lemma to_string_descriptor repr (h : heap) self n d params o :
  is_descriptor h self n d params o ->
  to_string repr h self = Ok (render_template n d params o).
Proof.
  intros (Hn & Hd & Ha & Ho). unfold to_string.
  rewrite Ha. cbn [mbind result_bind iter].
  rewrite for_each_ParameterSpec. cbn [mbind result_bind].
  rewrite Hn. cbn [mbind result_bind str].
  rewrite Hd. cbn [mbind result_bind str].
  rewrite Ho. cbn [mbind result_bind str].
  rewrite join_concat. unfold render_template.
  reflexivity.
Qed.

Lemma has_newline_app s t :
  has_newline (s ++ t) = has_newline s || has_newline t.
Proof.
  induction s as [|c s IH]; [reflexivity|].
  change (has_newline (String c s ++ t))
    with (Ascii.eqb "010" c || has_newline (s ++ t)).
  change (has_newline (String c s))
    with (Ascii.eqb "010" c || has_newline s).
  by rewrite IH, orb_assoc.
Qed.

Lemma has_newline_concat sep parts :
  has_newline sep = false ->
  has_newline (String.concat sep parts) = existsb has_newline parts.
Proof.
  intros Hsep. induction parts as [|p rest IH]; [reflexivity|].
  destruct rest as [|q rest].
  - cbn [String.concat existsb]. by rewrite orb_false_r.
  - change (has_newline (p ++ sep ++ String.concat sep (q :: rest))
            = has_newline p || existsb has_newline (q :: rest)).
    by rewrite !has_newline_app, Hsep, IH.
Qed.

Lemma has_newline_pairs params :
  existsb has_newline (map (fun p : string * string => p.1 ++ ": " ++ p.2) params)
  = existsb (fun p => has_newline p.1 || has_newline p.2) params.
Proof.
  induction params as [|p rest IH]; [reflexivity|].
  cbn [map existsb]. rewrite IH, !has_newline_app.
  change (has_newline ": ") with false. reflexivity.
Qed.

Lemma has_newline_render_template n d params o :
  has_newline (render_template n d params o)
  = has_newline n || has_newline d
    || existsb (fun p => has_newline p.1 || has_newline p.2) params
    || has_newline o.
Proof.
  unfold render_template.
  rewrite !has_newline_app, has_newline_concat, has_newline_pairs by reflexivity.
  change (has_newline "Tool Name: ") with false.
  change (has_newline ", Description: ") with false.
  change (has_newline ", Arguments: ") with false.
  change (has_newline ", Outputs: ") with false.
  cbn [orb]. by rewrite !orb_assoc.
Qed.

(** The cell of the notebook that prints [calculator.to_string()] shows
    this line. *)
Example notebook_output :
  to_string example_repr (tool calculator ∅).2 first_loc
  = Ok "Tool Name: calculator, Description: Multiply two integers., Arguments: a: int, b: int, Outputs: int".
Proof. by vm_compute. Qed.

Example str_of_values repr :
  map (str repr) [VStr "int"; VNone; VBool true; VInt 0; VInt (-5); VInt 12]
  = [Ok "int"; Ok "None"; Ok "True"; Ok "0"; Ok "-5"; Ok "12"].
Proof. vm_compute. reflexivity. Qed.

Example code_points_of_text :
  code_points "aé€b" = ["a"; "é"; "€"; "b"].
Proof. reflexivity. Qed.

(** ** Claims about rendering *)

(** C2, as amended.  For a ToolDescriptor with name [n], description
    [d], parameter specs [params] and output label [o], [to_string]
    returns exactly
    "Tool Name: n, Description: d, Arguments: a1: t1, ..., Outputs: o",
    the pairs joined with ", "; the text between the fields has no line
    break, so the result has one exactly when a field has one, and is a
    single line when no field has a line break.  With no parameters the
    arguments segment is empty and the "Arguments: " label stays, and the
    Tool made from an undocumented [def f(): pass] renders as the
    specification's scenario says. *)
Theorem to_string_renders_template :
  (forall repr (h : heap) self n d params o,
      is_descriptor h self n d params o ->
      to_string repr h self = Ok (render_template n d params o)
      /\ has_newline (render_template n d params o)
         = has_newline n || has_newline d
           || existsb (fun p => has_newline p.1 || has_newline p.2) params
           || has_newline o)
  /\ (forall repr (h : heap) self n d o,
         is_descriptor h self n d [] o ->
         to_string repr h self
         = Ok ("Tool Name: " ++ n ++ ", Description: " ++ d
               ++ ", Arguments: " ++ EmptyString ++ ", Outputs: " ++ o))
  /\ (forall repr,
         (tool f ∅).1 = Ok first_loc
         /\ to_string repr (tool f ∅).2 first_loc
            = Ok "Tool Name: f, Description: No description provided., Arguments: , Outputs: No return annotation")
  /\ (forall repr (h : heap) self n d params o,
         is_descriptor h self n d params o ->
         has_newline n = false ->
         has_newline d = false ->
         existsb (fun p => has_newline p.1 || has_newline p.2) params = false ->
         has_newline o = false ->
         exists line,
           to_string repr h self = Ok line /\ has_newline line = false).
Proof.
  split; [|split; [|split]]; cycle 3.
  - intros repr h self n d params o Hdesc Hn Hd Hparams Ho.
    eexists. split; [by apply to_string_descriptor|].
    by rewrite has_newline_render_template, Hn, Hd, Hparams, Ho.
  - intros repr h self n d params o Hd. split.
    + by apply to_string_descriptor.
    + apply has_newline_render_template.
  - intros repr h self n d o Hd.
    by rewrite (to_string_descriptor repr h self n d [] o Hd).
  - intros repr. split; [reflexivity|].
    rewrite (to_string_descriptor repr _ first_loc "f"
               "No description provided." [] "No return annotation");
      [reflexivity|].
    repeat split; reflexivity.
Qed.

Lemma to_string_renders_template_witness :
  to_string example_repr (tool calculator ∅).2 first_loc
  = Ok (render_template "calculator" "Multiply two integers."
          [("a", "int"); ("b", "int")] "int").
Proof.
  apply (proj1 to_string_renders_template example_repr
           (tool calculator ∅).2 first_loc).
  repeat split; vm_compute; reflexivity.
Defined.

(** C2 as the specification states it fails: the Tool made from a
    function whose docstring has two lines is a ToolDescriptor, and its
    rendering has a line break. *)
Lemma two_line_docstring_renders_on_two_lines :
  is_descriptor (tool two_lines ∅).2 first_loc "two_lines"
    ("First line." ++ String "010" "Second line.") [] "No return annotation"
  /\ exists text,
       to_string example_repr (tool two_lines ∅).2 first_loc = Ok text
       /\ has_newline text = true.
Proof.
  split; [repeat split; by vm_compute|].
  eexists. split; by vm_compute.
Qed.

(** C1, as amended.  For every function with a name [n], a
    documentation string [d] that is not empty, and a signature [sig]
    whose parameter annotations and return annotation are plain (an
    object that stands in the signature under its [__name__], or one
    without [__name__]), whatever heap the decorator runs in, the
    decorator succeeds and the rendering of the Tool is the template
    filled with [n], [d], the parameters in declaration order, each with
    its name and its annotation in full, and the return annotation in
    full: nothing is cut and nothing moves.  The function [multiply]
    renders as the specification's scenario says. *)
Theorem tool_to_string_round_trip :
  (forall repr func (h : heap) n d sig,
      __name__ func = Some n ->
      __doc__ func = Some d ->
      d <> EmptyString ->
      signature func = Some sig ->
      Forall (fun p => plain (annotation p) = true) (parameters sig) ->
      plain (return_annotation sig) = true ->
      round_trip repr func h n d sig)
  /\ (forall repr,
         to_string repr (tool multiply ∅).2 first_loc
         = Ok "Tool Name: multiply, Description: Multiply two integers., Arguments: a: int, b: int, Outputs: int").
Proof.
  split.
  - intros repr func h n d sig Hn Hd Hne Hsig Hparams Hret.
    exists (fresh (dom h)). split.
    + by rewrite (tool_Ok func sig n h Hsig Hn).
    + apply to_string_descriptor.
      destruct (tool_descriptor func sig n h Hsig Hn) as [Hdesc _].
      rewrite Hd in Hdesc.
      replace (or_default (Some d) "No description provided.") with d in Hdesc
        by (by destruct d).
      replace (output_label (return_annotation sig))
        with (annotation_text (return_annotation sig)) in Hdesc
        by (by destruct (return_annotation sig)).
      replace (map labelled (parameters sig))
        with (map declared (parameters sig)) in Hdesc; [exact Hdesc|].
      clear Hdesc Hsig. induction Hparams as [|p rest Hp _ IH]; [reflexivity|].
      cbn [map]. rewrite IH. f_equal. unfold declared, labelled.
      by destruct (annotation p).
  - intros repr.
    rewrite (to_string_descriptor repr _ first_loc "multiply"
               "Multiply two integers." [("a", "int"); ("b", "int")] "int");
      [reflexivity|].
    repeat split; reflexivity.
Qed.

Lemma tool_to_string_round_trip_witness :
  round_trip example_repr calculator ∅ "calculator" "Multiply two integers."
    two_ints.
Proof.
  apply (proj1 tool_to_string_round_trip example_repr calculator ∅
           "calculator" "Multiply two integers." two_ints);
    try reflexivity; try discriminate.
  repeat constructor.
Defined.

(** C1 as the specification states it fails, in two ways.  [blank] has a
    name, an annotated parameter, a return annotation and a documentation
    string, the empty one, and its rendering carries the fallback text
    where the documentation string belongs.  [count] is documented and
    annotates its parameter [list[int]], and its rendering shows the
    parameter as [list]: the annotation is cut to the name of the
    class. *)
Lemma round_trip_fails_twice :
  (__doc__ blank = Some EmptyString
   /\ to_string example_repr (tool blank ∅).2 first_loc
      = Ok "Tool Name: blank, Description: No description provided., Arguments: a: int, Outputs: int"
   /\ ~ round_trip example_repr blank ∅ "blank" EmptyString
         {| parameters := [ {| name := "a"; annotation := int |} ];
            return_annotation := int |})
  /\ (annotation_text (Aliased "list" "list[int]") = "list[int]"
      /\ to_string example_repr (tool count_items ∅).2 first_loc
         = Ok "Tool Name: count, Description: Count the items., Arguments: items: list, Outputs: int"
      /\ ~ round_trip example_repr count_items ∅ "count" "Count the items."
            {| parameters :=
                 [ {| name := "items";
                      annotation := Aliased "list" "list[int]" |} ];
               return_annotation := int |})
  /\ ~ (forall repr func (h : heap) n d sig,
           __name__ func = Some n ->
           __doc__ func = Some d ->
           signature func = Some sig ->
           Forall (fun p => annotation p <> _empty) (parameters sig) ->
           return_annotation sig <> _empty ->
           round_trip repr func h n d sig).
Proof.
  assert (~ round_trip example_repr blank ∅ "blank" EmptyString
            {| parameters := [ {| name := "a"; annotation := int |} ];
               return_annotation := int |}) as Hblank.
  { intros (self & Hself & Hrender).
    vm_compute in Hself. injection Hself as <-.
    vm_compute in Hrender. discriminate. }
  split; [|split].
  - split; [reflexivity|]. split; [by vm_compute|]. exact Hblank.
  - split; [reflexivity|]. split; [by vm_compute|].
    intros (self & Hself & Hrender).
    vm_compute in Hself. injection Hself as <-.
    vm_compute in Hrender. discriminate.
  - intros H. apply Hblank. apply H; try reflexivity; try discriminate.
    repeat constructor. discriminate.
Qed.

(** ** Invocation *)

Lemma call_delegates code (h : heap) self fn args kwargs :
  getattr h self "func" = Ok fn ->
  names_self kwargs = false ->
  __call__ code self args kwargs h = call code fn args kwargs h.
Proof.
  intros Hfn Hself. unfold __call__, call. rewrite Hself, Hfn.
  by destruct (distinct (map fst kwargs)).
Qed.

Lemma call_keyword_self code (h : heap) self args kwargs :
  names_self kwargs = true ->
  __call__ code self args kwargs h = (Raise TypeError, h).
Proof.
  intros Hself. unfold __call__. by rewrite Hself, orb_true_r.
Qed.

Lemma tool_wraps func (h h' : heap) self :
  tool func h = (Ok self, h') -> getattr h' self "func" = Ok (VFunc func).
Proof.
  intros Htool.
  destruct (tool_Ok_inv _ _ _ _ Htool) as (sig & n & Hsig & Hn).
  destruct (tool_descriptor func sig n h Hsig Hn) as [_ Hfn].
  rewrite (tool_Ok func sig n h Hsig Hn) in Htool.
  injection Htool as <- <-.
  by rewrite (tool_Ok func sig n h Hsig Hn) in Hfn.
Qed.

(** X17. Invoking a Tool whose [func] is [fn] with
    arguments among which no keyword is named [self] is calling [fn] with
    the same positional and keyword arguments in the same heap: the same
    outcome and the same heap afterwards.  This holds for a Tool made by
    the decorator and for one constructed directly; the [multiply] Tool
    invoked on (3, 4) returns 12, also with [b] passed by keyword. *)
Theorem call_is_the_wrapped_call :
  (forall code (h : heap) self fn args kwargs,
      getattr h self "func" = Ok fn ->
      names_self kwargs = false ->
      __call__ code self args kwargs h = call code fn args kwargs h)
  /\ (forall code func (h h' : heap) self args kwargs,
         tool func h = (Ok self, h') ->
         names_self kwargs = false ->
         __call__ code self args kwargs h'
         = call code (VFunc func) args kwargs h')
  /\ (forall code n d fn a o (h : heap) args kwargs,
         names_self kwargs = false ->
         __call__ code (Tool n d fn a o h).1 args kwargs (Tool n d fn a o h).2
         = call code fn args kwargs (Tool n d fn a o h).2)
  /\ (__call__ example_code first_loc [VInt 3; VInt 4] [] (tool multiply ∅).2).1
     = Ok (VInt 12)
  /\ (__call__ example_code first_loc [VInt 3] [("b", VInt 4)]
        (tool multiply ∅).2).1
     = Ok (VInt 12).
Proof.
  split; [|split; [|split; [|split]]].
  - intros. by apply call_delegates.
  - intros code func h h' self args kwargs Htool Hself.
    apply call_delegates; [|exact Hself]. by apply tool_wraps with h.
  - intros code n d fn a o h args kwargs Hself.
    apply call_delegates; [|exact Hself].
    rewrite Tool_loc. apply Tool_getattr.
  - by vm_compute.
  - by vm_compute.
Qed.

Lemma call_is_the_wrapped_call_witness :
  __call__ example_code first_loc [VStr "ab"; VInt 2] [] (tool multiply ∅).2
  = call example_code (VFunc multiply) [VStr "ab"; VInt 2] []
      (tool multiply ∅).2.
Proof.
  apply (proj1 call_is_the_wrapped_call example_code (tool multiply ∅).2
           first_loc (VFunc multiply)).
  - vm_compute. reflexivity.
  - reflexivity.
Defined.

(** C3. The code departs from the claim at a keyword named [self]: the
    function [def takes_self(self): pass] accepts its argument by keyword
    and returns None; the Tool made from it, given the same keyword,
    raises TypeError, the keyword being a second value for the [self] of
    [__call__], which the header does not make positional-only. *)
Lemma keyword_self_is_not_forwarded :
  getattr (tool takes_self ∅).2 first_loc "func" = Ok (VFunc takes_self)
  /\ (call example_code (VFunc takes_self) [] [("self", VInt 5)]
        (tool takes_self ∅).2).1
     = Ok VNone
  /\ (__call__ example_code first_loc [] [("self", VInt 5)]
        (tool takes_self ∅).2).1
     = Raise TypeError
  /\ __call__ example_code first_loc [] [("self", VInt 5)]
       (tool takes_self ∅).2
     <> call example_code (VFunc takes_self) [] [("self", VInt 5)]
          (tool takes_self ∅).2.
Proof.
  split; [by vm_compute|]. split; [by vm_compute|]. split; [by vm_compute|].
  intros Heq. apply (f_equal fst) in Heq. vm_compute in Heq. discriminate.
Qed.

(** X18. With arguments among which no keyword is named
    [self], an invocation raises exactly when the wrapped callable
    raises, with the same exception, and the heap afterwards is the heap
    after that one call of the callable: nothing is caught, wrapped,
    translated or run again.  A keyword named [self] is refused with
    TypeError before the callable is reached, and the heap stays as it
    is.  The Tool of a function that raises RuntimeError("boom") raises
    RuntimeError("boom"). *)
Theorem call_propagates_exceptions :
  (forall code (h : heap) self fn args kwargs,
      getattr h self "func" = Ok fn ->
      names_self kwargs = false ->
      (forall e,
          (__call__ code self args kwargs h).1 = Raise e
          <-> (call code fn args kwargs h).1 = Raise e)
      /\ (__call__ code self args kwargs h).2
         = (call code fn args kwargs h).2)
  /\ (forall code (h : heap) self args kwargs,
         names_self kwargs = true ->
         __call__ code self args kwargs h = (Raise TypeError, h))
  /\ (__call__ example_code first_loc [] [] (tool fail ∅).2).1
     = Raise (Raised "RuntimeError" [VStr "boom"]).
Proof.
  split; [|split].
  - intros code h self fn args kwargs Hfn Hself.
    by rewrite (call_delegates code h self fn args kwargs Hfn Hself).
  - intros. by apply call_keyword_self.
  - by vm_compute.
Qed.

Lemma call_propagates_exceptions_witness :
  (__call__ example_code first_loc [] [] (tool fail ∅).2).1
  = Raise (Raised "RuntimeError" [VStr "boom"])
  <-> (call example_code (VFunc fail) [] [] (tool fail ∅).2).1
      = Raise (Raised "RuntimeError" [VStr "boom"]).
Proof.
  apply (proj1 call_propagates_exceptions example_code (tool fail ∅).2
           first_loc (VFunc fail) [] []).
  - vm_compute. reflexivity.
  - reflexivity.
Defined.

(** C8. The code departs from the claim at a keyword named [self]:
    given that keyword, the Tool made from [def takes_self(self): pass]
    raises TypeError while the function, called with the same keyword,
    raises nothing. *)
Lemma keyword_self_raises_in_the_tool_only :
  (__call__ example_code first_loc [] [("self", VNone)]
     (tool takes_self ∅).2).1
  = Raise TypeError
  /\ (call example_code (VFunc takes_self) [] [("self", VNone)]
        (tool takes_self ∅).2).1
     = Ok VNone
  /\ ~ ((__call__ example_code first_loc [] [("self", VNone)]
           (tool takes_self ∅).2).1
        = Raise TypeError
        <-> (call example_code (VFunc takes_self) [] [("self", VNone)]
               (tool takes_self ∅).2).1
            = Raise TypeError).
Proof.
  split; [by vm_compute|]. split; [by vm_compute|].
  intros [Hraise _]. specialize (Hraise ltac:(by vm_compute)).
  vm_compute in Hraise. discriminate.
Qed.

(** ** Claims about the decorator *)

Lemma tool_attributes func sig n (h h' : heap) self :
  signature func = Some sig -> __name__ func = Some n ->
  tool func h = (Ok self, h') ->
  is_descriptor h' self n
    (or_default (__doc__ func) "No description provided.")
    (map labelled (parameters sig))
    (output_label (return_annotation sig)).
Proof.
  intros Hsig Hn Htool.
  destruct (tool_descriptor func sig n h Hsig Hn) as [Hdesc _].
  rewrite (tool_Ok func sig n h Hsig Hn) in Htool, Hdesc.
  by injection Htool as <- <-.
Qed.

Lemma lookup_specs (params : list Param) i p :
  params !! i = Some p ->
  map ParameterSpec (map labelled params) !! i
  = Some (VTuple [VStr (name p); VStr (annotation_name (annotation p))]).
Proof.
  revert i. induction params as [|q rest IH]; intros [|i] Hp; try done.
  - by injection Hp as ->.
  - by apply IH.
Qed.

(** C4. For a function with N declared parameters, the "arguments" of
    the Tool the decorator makes is a list of N entries, and entry [i] is
    the pair whose first component is the name of the function's [i]-th
    declared parameter. *)
Theorem tool_arguments_follow_parameters :
  forall func sig (h h' : heap) self,
    signature func = Some sig ->
    tool func h = (Ok self, h') ->
    exists specs,
      getattr h' self "arguments" = Ok (VList specs)
      /\ length specs = length (parameters sig)
      /\ forall i p,
           parameters sig !! i = Some p ->
           exists type_label,
             specs !! i = Some (VTuple [VStr (name p); VStr type_label]).
Proof.
  intros func sig h h' self Hsig Htool.
  destruct (tool_Ok_inv _ _ _ _ Htool) as (sig' & n & Hsig' & Hn).
  assert (sig' = sig) as -> by congruence.
  destruct (tool_attributes func sig n h h' self Hsig Hn Htool)
    as (_ & _ & Hargs & _).
  eexists. split; [exact Hargs|]. split.
  - by rewrite !length_map.
  - intros i p Hp. eexists. by apply lookup_specs.
Qed.

Lemma tool_arguments_follow_parameters_witness :
  exists specs,
    getattr (tool multiply ∅).2 first_loc "arguments" = Ok (VList specs)
    /\ length specs = 2
    /\ forall i p,
         parameters two_ints !! i = Some p ->
         exists type_label,
           specs !! i = Some (VTuple [VStr (name p); VStr type_label]).
Proof.
  apply (tool_arguments_follow_parameters multiply two_ints ∅
           (tool multiply ∅).2 first_loc); reflexivity.
Defined.

(** C5. When the function declares no return type the Tool's "outputs"
    is "No return annotation"; when it declares one, "outputs" is the
    [__name__] of the annotation if it has one, also when the annotation
    stands in the signature as a longer text, and its [str] otherwise. *)
Theorem tool_outputs_label :
  forall func sig (h h' : heap) self,
    signature func = Some sig ->
    tool func h = (Ok self, h') ->
    (return_annotation sig = _empty ->
     getattr h' self "outputs" = Ok (VStr "No return annotation"))
    /\ (forall short_name,
           return_annotation sig = Named short_name ->
           getattr h' self "outputs" = Ok (VStr short_name))
    /\ (forall text,
           return_annotation sig = Unnamed text ->
           getattr h' self "outputs" = Ok (VStr text))
    /\ (forall short_name text,
           return_annotation sig = Aliased short_name text ->
           getattr h' self "outputs" = Ok (VStr short_name)).
Proof.
  intros func sig h h' self Hsig Htool.
  destruct (tool_Ok_inv _ _ _ _ Htool) as (sig' & n & Hsig' & Hn).
  assert (sig' = sig) as -> by congruence.
  destruct (tool_attributes func sig n h h' self Hsig Hn Htool)
    as (_ & _ & _ & Hout).
  split; [|split; [|split]];
    [intros Hr | intros short_name Hr | intros text Hr
     | intros short_name text Hr];
    by rewrite Hout, Hr.
Qed.

Lemma tool_outputs_label_witness :
  getattr (tool f ∅).2 first_loc "outputs" = Ok (VStr "No return annotation")
  /\ getattr (tool multiply ∅).2 first_loc "outputs" = Ok (VStr "int").
Proof.
  split.
  - apply (proj1 (tool_outputs_label f no_parameters ∅ (tool f ∅).2 first_loc
                    eq_refl eq_refl)).
    reflexivity.
  - apply (proj1 (proj2 (tool_outputs_label multiply two_ints ∅
                           (tool multiply ∅).2 first_loc eq_refl eq_refl))).
    reflexivity.
Defined.

(** C6. When the function has a documentation string that is not empty,
    the Tool's "description" is that string; when it has none, or an
    empty one, "description" is "No description provided.". *)
Theorem tool_description :
  forall func (h h' : heap) self,
    tool func h = (Ok self, h') ->
    (forall doc,
        __doc__ func = Some doc -> doc <> EmptyString ->
        getattr h' self "description" = Ok (VStr doc))
    /\ (__doc__ func = None \/ __doc__ func = Some EmptyString ->
        getattr h' self "description" = Ok (VStr "No description provided.")).
Proof.
  intros func h h' self Htool.
  destruct (tool_Ok_inv _ _ _ _ Htool) as (sig & n & Hsig & Hn).
  destruct (tool_attributes func sig n h h' self Hsig Hn Htool)
    as (_ & Hdesc & _).
  split.
  - intros doc Hdoc Hne. rewrite Hdesc, Hdoc. by destruct doc.
  - intros [Hdoc|Hdoc]; by rewrite Hdesc, Hdoc.
Qed.

Lemma tool_description_witness :
  getattr (tool multiply ∅).2 first_loc "description"
  = Ok (VStr "Multiply two integers.")
  /\ getattr (tool f ∅).2 first_loc "description"
     = Ok (VStr "No description provided.")
  /\ getattr (tool blank ∅).2 first_loc "description"
     = Ok (VStr "No description provided.").
Proof.
  split; [|split].
  - apply (proj1 (tool_description multiply ∅ (tool multiply ∅).2 first_loc
                    eq_refl)); [reflexivity | discriminate].
  - apply (proj2 (tool_description f ∅ (tool f ∅).2 first_loc eq_refl)).
    left. reflexivity.
  - apply (proj2 (tool_description blank ∅ (tool blank ∅).2 first_loc eq_refl)).
    right. reflexivity.
Defined.

(** C7. The decorator returns a Tool for every function that has a name
    and a signature, with or without parameter annotations, a return
    annotation or a documentation string; the entry of a parameter
    without annotation carries the label "_empty", the name of the marker
    class [inspect._empty]. *)
Theorem tool_total_on_functions :
  forall func sig n (h : heap),
    signature func = Some sig ->
    __name__ func = Some n ->
    exists self h' specs,
      tool func h = (Ok self, h')
      /\ getattr h' self "arguments" = Ok (VList specs)
      /\ forall i p,
           parameters sig !! i = Some p ->
           annotation p = _empty ->
           specs !! i = Some (VTuple [VStr (name p); VStr "_empty"]).
Proof.
  intros func sig n h Hsig Hn.
  destruct (tool_descriptor func sig n h Hsig Hn) as [(_ & _ & Hargs & _) _].
  exists (fresh (dom h)), (tool func h).2. eexists. split; [|split].
  - by rewrite (tool_Ok func sig n h Hsig Hn).
  - exact Hargs.
  - intros i p Hp Hann. rewrite (lookup_specs _ _ _ Hp). by rewrite Hann.
Qed.

Lemma tool_total_on_functions_witness :
  exists self h' specs,
    tool untyped ∅ = (Ok self, h')
    /\ getattr h' self "arguments" = Ok (VList specs)
    /\ forall i p,
         [ {| name := "x"; annotation := _empty |};
           {| name := "y"; annotation := _empty |} ] !! i = Some p ->
         annotation p = _empty ->
         specs !! i = Some (VTuple [VStr (name p); VStr "_empty"]).
Proof.
  apply (tool_total_on_functions untyped
           {| parameters := [ {| name := "x"; annotation := _empty |};
                              {| name := "y"; annotation := _empty |} ];
              return_annotation := _empty |} "untyped" ∅); reflexivity.
Defined.

(** ** Claims about the object itself *)

(** C10. Constructing a Tool directly checks nothing and cannot fail:
    whatever the five values are, the constructor returns a location that
    was free, the object there has exactly the five attributes with the
    values as given, and no other object changes.  An empty name, a
    description that is not a string, a [func] that is not callable and
    an [arguments] that is no list of pairs are stored like any other. *)
Theorem Tool_stores_its_arguments :
  (forall n d fn a o (h : heap),
      let self := (Tool n d fn a o h).1 in
      let h' := (Tool n d fn a o h).2 in
      h !! self = None
      /\ h' !! self
         = Some (<["outputs" := o]> (<["arguments" := a]> (<["func" := fn]>
                   (<["description" := d]> (<["name" := n]> (∅ : object))))))
      /\ fields h' self = [Ok n; Ok d; Ok a; Ok o; Ok fn]
      /\ forall l, l <> self -> h' !! l = h !! l)
  /\ fields (Tool (VStr EmptyString) VNone (VInt 7) (VStr "xy") (VBool true) ∅).2 first_loc
     = [Ok (VStr EmptyString); Ok VNone; Ok (VStr "xy"); Ok (VBool true); Ok (VInt 7)].
Proof.
  split.
  - intros n d fn a o h self h'. subst self h'. rewrite Tool_loc.
    split; [apply fresh_loc_free|]. split; [apply Tool_object|]. split.
    + destruct (Tool_getattr n d fn a o h) as (H1 & H2 & H3 & H4 & H5).
      unfold fields. cbn [map]. by rewrite H1, H2, H3, H4, H5.
    + intros l Hl. by apply Tool_other.
  - by vm_compute.
Qed.






(** * Further properties of the code *)

(** ** Rendering beyond well-typed descriptors *)

Lemma format_argument_pair_item repr item p q :
  pair_item item p -> shown repr p q ->
  format_argument repr item = Ok (q.1 ++ ": " ++ q.2).
Proof.
  intros [-> | ->] [H1 H2]; unfold format_argument;
    cbn [unpack2 iter mbind result_bind]; by rewrite H1, H2.
Qed.

Lemma for_each_pair_items repr items pairs texts :
  Forall2 pair_item items pairs ->
  Forall2 (shown repr) pairs texts ->
  for_each (format_argument repr) items
  = Ok (map (fun q => q.1 ++ ": " ++ q.2) texts).
Proof.
  intros Hitems. revert texts.
  induction Hitems as [|item p items pairs Hitem _ IH]; intros texts Htexts.
  - by inversion Htexts.
  - inversion Htexts as [|? q ? texts' Hq Hrest]; subst.
    cbn [for_each map].
    by rewrite (format_argument_pair_item repr item p q Hitem Hq), (IH _ Hrest).
Qed.

Lemma str_of_int_small (z : Z) :
  (Z.abs z < 10 ^ int_max_str_digits)%Z ->
  str_of_int z = Ok (NilZero.string_of_int (Z.to_int z)).
Proof.
  intros Hz. apply Z.ltb_lt in Hz. unfold str_of_int. rewrite Hz.
  reflexivity.
Qed.

Lemma str_of_int_large (z : Z) :
  (10 ^ int_max_str_digits <= Z.abs z)%Z -> str_of_int z = Raise ValueError.
Proof.
  intros Hz. apply Z.ltb_ge in Hz. unfold str_of_int. rewrite Hz.
  reflexivity.
Qed.

(** X1. [to_string] formats whatever the fields hold with [str] and
    checks no type: when [arguments] is a list or a tuple whose entries
    are two-element tuples or lists, of any values, and every value has a
    text, the result is the template filled with these texts.  Strings,
    None, booleans and integers of at most 4300 decimal digits have one;
    an integer of more digits as the name makes the rendering raise
    ValueError. *)
Theorem to_string_formats_any_values :
  (forall repr (h : heap) self n d o a items pairs n' d' o' texts,
      getattr h self "name" = Ok n ->
      getattr h self "description" = Ok d ->
      getattr h self "outputs" = Ok o ->
      getattr h self "arguments" = Ok a ->
      a = VList items \/ a = VTuple items ->
      Forall2 pair_item items pairs ->
      Forall2 (shown repr) pairs texts ->
      str repr n = Ok n' -> str repr d = Ok d' -> str repr o = Ok o' ->
      to_string repr h self = Ok (render_template n' d' texts o'))
  /\ (forall repr s b z,
         (Z.abs z < 10 ^ 4300)%Z ->
         str repr (VStr s) = Ok s
         /\ str repr VNone = Ok "None"
         /\ str repr (VBool b) = Ok (if b then "True" else "False")
         /\ str repr (VInt z) = Ok (NilZero.string_of_int (Z.to_int z)))
  /\ (forall repr (h : heap) self params z,
         getattr h self "arguments" = Ok (VList (map ParameterSpec params)) ->
         getattr h self "name" = Ok (VInt z) ->
         (10 ^ 4300 <= Z.abs z)%Z ->
         to_string repr h self = Raise ValueError).
Proof.
  split; [|split].
  - intros repr h self n d o a items pairs n' d' o' texts
      Hn Hd Ho Ha Hshape Hitems Htexts Hn' Hd' Ho'.
    unfold to_string. rewrite Ha. cbn [mbind result_bind].
    assert (iter a = Ok items) as -> by (by destruct Hshape as [-> | ->]).
    cbn [mbind result_bind].
    rewrite (for_each_pair_items repr items pairs texts Hitems Htexts).
    cbn [mbind result_bind]. rewrite Hn. cbn [mbind result_bind].
    rewrite Hn'. cbn [mbind result_bind]. rewrite Hd. cbn [mbind result_bind].
    rewrite Hd'. cbn [mbind result_bind]. rewrite Ho. cbn [mbind result_bind].
    rewrite Ho'. cbn [mbind result_bind].
    rewrite join_concat. reflexivity.
  - intros repr s b z Hz. repeat split; [by destruct b|].
    cbn [str]. apply str_of_int_small. exact Hz.
  - intros repr h self params z Ha Hn Hz.
    unfold to_string. rewrite Ha. cbn [mbind result_bind iter].
    rewrite for_each_ParameterSpec. cbn [mbind result_bind].
    rewrite Hn. cbn [mbind result_bind str].
    rewrite (str_of_int_large z Hz). reflexivity.
Qed.

Lemma to_string_formats_any_values_witness :
  to_string example_repr
    (Tool (VInt 7) VNone (VBool true)
          (VTuple [VList [VStr "a"; VInt (-1)]]) (VBool false) ∅).2 first_loc
  = Ok "Tool Name: 7, Description: None, Arguments: a: -1, Outputs: False".
Proof.
  apply (proj1 to_string_formats_any_values example_repr _ first_loc
           (VInt 7) VNone (VBool false)
           (VTuple [VList [VStr "a"; VInt (-1)]])
           [VList [VStr "a"; VInt (-1)]] [(VStr "a", VInt (-1))]
           "7" "None" "False" [("a", "-1")]).
  - vm_compute. reflexivity.
  - vm_compute. reflexivity.
  - vm_compute. reflexivity.
  - vm_compute. reflexivity.
  - right. reflexivity.
  - constructor; [right; reflexivity | constructor].
  - constructor; [split; vm_compute; reflexivity | constructor].
  - vm_compute. reflexivity.
  - reflexivity.
  - reflexivity.
Defined.

(** X2. A Tool constructed with an [arguments] that cannot be iterated
    (None, a boolean, an integer, a function) is constructed all the
    same, and rendering it raises TypeError. *)
Theorem to_string_arguments_not_iterable :
  forall repr n d fn a o (h : heap),
    not_iterable a = true ->
    to_string repr (Tool n d fn a o h).2 (Tool n d fn a o h).1
    = Raise TypeError.
Proof.
  intros repr n d fn a o h Ha. unfold to_string. rewrite Tool_loc.
  destruct (Tool_getattr n d fn a o h) as (_ & _ & _ & -> & _).
  by destruct a.
Qed.

Lemma to_string_arguments_not_iterable_witness :
  to_string example_repr
    (Tool (VStr "t") (VStr "d") (VFunc f) VNone (VStr "o") ∅).2
    (Tool (VStr "t") (VStr "d") (VFunc f) VNone (VStr "o") ∅).1
  = Raise TypeError.
Proof.
  apply (to_string_arguments_not_iterable example_repr
           (VStr "t") (VStr "d") (VFunc f) VNone (VStr "o") ∅).
  reflexivity.
Defined.






Lemma to_string_agree repr (h1 h2 : heap) self1 self2 :
  getattr h1 self1 "arguments" = getattr h2 self2 "arguments" ->
  getattr h1 self1 "name" = getattr h2 self2 "name" ->
  getattr h1 self1 "description" = getattr h2 self2 "description" ->
  getattr h1 self1 "outputs" = getattr h2 self2 "outputs" ->
  to_string repr h1 self1 = to_string repr h2 self2.
Proof. intros Ha Hn Hd Ho. unfold to_string. by rewrite Ha, Hn, Hd, Ho. Qed.

Lemma to_string_same_object repr (h1 h2 : heap) self :
  h1 !! self = h2 !! self -> to_string repr h1 self = to_string repr h2 self.
Proof.
  intros Hsame. apply to_string_agree; unfold getattr; by rewrite Hsame.
Qed.

(** X4. The rendering is a function of the four attributes [arguments],
    [name], [description] and [outputs] alone: two objects, in the same
    heap or in different ones, that agree on these four render alike,
    whatever their [func] and whatever else the objects or heaps hold. *)
Theorem to_string_reads_four_attributes :
  forall repr (h1 h2 : heap) self1 self2,
    (forall attr,
        In attr ["arguments"; "name"; "description"; "outputs"] ->
        getattr h1 self1 attr = getattr h2 self2 attr) ->
    to_string repr h1 self1 = to_string repr h2 self2.
Proof.
  intros repr h1 h2 self1 self2 Hsame.
  apply to_string_agree; apply Hsame; cbn [In]; tauto.
Qed.

Lemma to_string_reads_four_attributes_witness :
  to_string example_repr
    (Tool (VStr "t") (VStr "d") (VFunc f) (VList []) (VStr "o") ∅).2 first_loc
  = to_string example_repr
      (Tool (VStr "t") (VStr "d") VNone (VList []) (VStr "o") ∅).2 first_loc.
Proof.
  apply to_string_reads_four_attributes.
  intros attr [<- | [<- | [<- | [<- | []]]]]; vm_compute; reflexivity.
Defined.

Lemma append_assoc (s t u : string) : (s ++ t) ++ u = s ++ t ++ u.
Proof.
  induction s as [|c s IH]; [reflexivity|].
  change (String c ((s ++ t) ++ u) = String c (s ++ t ++ u)).
  by rewrite IH.
Qed.

Lemma append_length (s t : string) :
  String.length (s ++ t) = String.length s + String.length t.
Proof.
  induction s as [|c s IH]; [reflexivity|].
  change (S (String.length (s ++ t)) = S (String.length s + String.length t)).
  by rewrite IH.
Qed.

(** X5. The rendering escapes nothing, so it cannot be read back: a
    descriptor whose name ends in text that looks like the start of the
    description field renders exactly like a different descriptor, with
    a shorter name, whose description starts with that text. *)
Theorem to_string_is_ambiguous :
  forall repr (h1 h2 : heap) self1 self2 n x d params o,
    is_descriptor h1 self1 (n ++ ", Description: " ++ x) d params o ->
    is_descriptor h2 self2 n (x ++ ", Description: " ++ d) params o ->
    to_string repr h1 self1 = to_string repr h2 self2
    /\ n ++ ", Description: " ++ x <> n.
Proof.
  intros repr h1 h2 self1 self2 n x d params o H1 H2. split.
  - rewrite (to_string_descriptor repr h1 self1 _ _ _ _ H1),
      (to_string_descriptor repr h2 self2 _ _ _ _ H2).
    unfold render_template. by rewrite !append_assoc.
  - intros Heq. apply (f_equal String.length) in Heq.
    rewrite !append_length in Heq. cbn [String.length] in Heq. lia.
Qed.

Lemma to_string_is_ambiguous_witness :
  to_string example_repr
    (Tool (VStr "a, Description: b") (VStr "c") VNone (VList []) (VStr "o")
          ∅).2 first_loc
  = to_string example_repr
      (Tool (VStr "a") (VStr "b, Description: c") VNone (VList []) (VStr "o")
            ∅).2 first_loc.
Proof.
  apply (to_string_is_ambiguous example_repr _ _ first_loc first_loc
           "a" "b" "c" [] "o");
    repeat split; vm_compute; reflexivity.
Defined.



(** ** The decorator: failure, composition, labels *)

(** X7. The decorator succeeds exactly on callables that have a
    signature and a [__name__]; when it raises, it raises before the
    constructor runs, so no object is created and the heap is as it
    was. *)
Theorem tool_fails_cleanly :
  forall func (h : heap),
    ((exists self h', tool func h = (Ok self, h'))
     <-> is_Some (signature func) /\ is_Some (__name__ func))
    /\ (forall e h', tool func h = (Raise e, h') -> h' = h).
Proof.
  intros func h. split; [split|].
  - intros (self & h' & Htool).
    destruct (tool_Ok_inv _ _ _ _ Htool) as (sig & n & -> & ->). eauto.
  - intros [[sig Hsig] [n Hn]]. rewrite (tool_Ok func sig n h Hsig Hn). eauto.
  - intros e h'. unfold tool.
    destruct (signature func); [|by intros [= _ <-]].
    destruct (__name__ func); [discriminate|by intros [= _ <-]].
Qed.

Lemma tool_fails_cleanly_witness :
  let partial_object :=
    {| __name__ := None; __doc__ := Some "partial(func, ...)";
       signature := Some no_parameters; reflection := no_signature; __code__ := 1 |} in
  (tool partial_object ∅).2 = ∅.
Proof.
  intros partial_object.
  apply (proj2 (tool_fails_cleanly partial_object ∅) AttributeError).
  reflexivity.
Defined.

(** X8. Decorating one function after another gives two different
    Tools, and the second decoration leaves the first Tool as it was:
    same object, same rendering. *)
Theorem tool_twice :
  forall repr func1 func2 (h h1 h2 : heap) self1 self2,
    tool func1 h = (Ok self1, h1) ->
    tool func2 h1 = (Ok self2, h2) ->
    self1 <> self2
    /\ h2 !! self1 = h1 !! self1
    /\ to_string repr h2 self1 = to_string repr h1 self1.
Proof.
  intros repr func1 func2 h h1 h2 self1 self2 Htool1 Htool2.
  destruct (tool_Ok_inv _ _ _ _ Htool1) as (sig1 & n1 & Hsig1 & Hn1).
  destruct (tool_Ok_inv _ _ _ _ Htool2) as (sig2 & n2 & Hsig2 & Hn2).
  rewrite (tool_Ok func1 sig1 n1 h Hsig1 Hn1) in Htool1.
  rewrite (tool_Ok func2 sig2 n2 h1 Hsig2 Hn2) in Htool2.
  injection Htool1 as <- <-. injection Htool2 as <- <-.
  assert (fresh (dom h) <> fresh (dom (Tool (VStr n1)
            (VStr (or_default (__doc__ func1) "No description provided."))
            (VFunc func1)
            (VList (map ParameterSpec (map labelled (parameters sig1))))
            (VStr (output_label (return_annotation sig1))) h).2)) as Hne.
  { intros Heq.
    match goal with
    | H : fresh (dom h) = fresh (dom ?h1) |- _ =>
        pose proof (fresh_loc_free h1) as Hfree; rewrite <- H in Hfree
    end.
    by rewrite Tool_object in Hfree. }
  split; [exact Hne|].
  assert (forall X Y : heap, X !! fresh (dom h) = Y !! fresh (dom h) ->
            to_string repr X (fresh (dom h)) = to_string repr Y (fresh (dom h)))
    as Hrender by (intros; by apply to_string_same_object).
  split; [|apply Hrender]; by apply Tool_other.
Qed.

Lemma tool_twice_witness :
  first_loc <> 2%positive
  /\ (tool f (tool calculator ∅).2).2 !! first_loc
     = (tool calculator ∅).2 !! first_loc
  /\ to_string example_repr (tool f (tool calculator ∅).2).2 first_loc
     = to_string example_repr (tool calculator ∅).2 first_loc.
Proof.
  apply (tool_twice example_repr calculator f ∅ (tool calculator ∅).2
           (tool f (tool calculator ∅).2).2 first_loc 2%positive);
    vm_compute; reflexivity.
Defined.

(** X9. The description of a Tool made by the decorator is never the
    empty string, whatever the function's documentation. *)
Theorem tool_description_not_empty :
  forall func (h h' : heap) self,
    tool func h = (Ok self, h') ->
    exists description,
      getattr h' self "description" = Ok (VStr description)
      /\ description <> EmptyString.
Proof.
  intros func h h' self Htool.
  destruct (tool_Ok_inv _ _ _ _ Htool) as (sig & n & Hsig & Hn).
  destruct (tool_attributes func sig n h h' self Hsig Hn Htool)
    as (_ & Hdesc & _).
  eexists. split; [exact Hdesc|].
  by destruct (__doc__ func) as [[|c doc]|].
Qed.

Lemma tool_description_not_empty_witness :
  exists description,
    getattr (tool blank ∅).2 first_loc "description" = Ok (VStr description)
    /\ description <> EmptyString.
Proof.
  apply (tool_description_not_empty blank ∅ (tool blank ∅).2 first_loc).
  reflexivity.
Defined.

(** X10. Every Tool the decorator returns can be rendered, annotated or
    not, documented or not: the rendering is the template filled with the
    function's name, its documentation string or the fallback text, its
    parameters in order with the labels of their annotations ("_empty"
    where there is none), and the label of the return annotation or
    "No return annotation". *)
Theorem tool_always_renders :
  forall repr func sig n (h h' : heap) self,
    signature func = Some sig ->
    __name__ func = Some n ->
    tool func h = (Ok self, h') ->
    to_string repr h' self
    = Ok (render_template n
            (or_default (__doc__ func) "No description provided.")
            (map labelled (parameters sig))
            (output_label (return_annotation sig))).
Proof.
  intros repr func sig n h h' self Hsig Hn Htool.
  apply to_string_descriptor. by apply tool_attributes with h.
Qed.

Lemma tool_always_renders_witness :
  to_string example_repr (tool untyped ∅).2 first_loc
  = Ok "Tool Name: untyped, Description: No description provided., Arguments: x: _empty, y: _empty, Outputs: No return annotation".
Proof.
  apply (tool_always_renders example_repr untyped
           {| parameters := [ {| name := "x"; annotation := _empty |};
                              {| name := "y"; annotation := _empty |} ];
              return_annotation := _empty |} "untyped" ∅
           (tool untyped ∅).2 first_loc); reflexivity.
Defined.

(** X11. The Tool made by the decorator is named after the function,
    with its [__name__] as it is, and its [func] is the function
    object that was decorated. *)
Theorem tool_name_and_func :
  forall func n (h h' : heap) self,
    __name__ func = Some n ->
    tool func h = (Ok self, h') ->
    getattr h' self "name" = Ok (VStr n)
    /\ getattr h' self "func" = Ok (VFunc func).
Proof.
  intros func n h h' self Hn Htool.
  destruct (tool_Ok_inv _ _ _ _ Htool) as (sig & n' & Hsig & Hn').
  assert (n' = n) as -> by congruence.
  destruct (tool_attributes func sig n h h' self Hsig Hn Htool) as (Hname & _).
  split; [exact Hname|]. by apply tool_wraps with h.
Qed.

Lemma tool_name_and_func_witness :
  getattr (tool calculator ∅).2 first_loc "name" = Ok (VStr "calculator")
  /\ getattr (tool calculator ∅).2 first_loc "func" = Ok (VFunc calculator).
Proof.
  apply (tool_name_and_func calculator "calculator" ∅); reflexivity.
Defined.

(** X12. The type label of the [i]-th entry of [arguments] is the
    [__name__] of the [i]-th parameter's annotation when the annotation
    has one, also when it stands in the signature as a longer text, and
    [str] of the annotation otherwise. *)
Theorem tool_argument_type_labels :
  forall func sig (h h' : heap) self,
    signature func = Some sig ->
    tool func h = (Ok self, h') ->
    exists specs,
      getattr h' self "arguments" = Ok (VList specs)
      /\ forall i p,
           parameters sig !! i = Some p ->
           (forall short_name,
               annotation p = Named short_name ->
               specs !! i = Some (VTuple [VStr (name p); VStr short_name]))
           /\ (forall text,
                  annotation p = Unnamed text ->
                  specs !! i = Some (VTuple [VStr (name p); VStr text]))
           /\ (forall short_name text,
                  annotation p = Aliased short_name text ->
                  specs !! i
                  = Some (VTuple [VStr (name p); VStr short_name])).
Proof.
  intros func sig h h' self Hsig Htool.
  destruct (tool_Ok_inv _ _ _ _ Htool) as (sig' & n & Hsig' & Hn).
  assert (sig' = sig) as -> by congruence.
  destruct (tool_attributes func sig n h h' self Hsig Hn Htool)
    as (_ & _ & Hargs & _).
  eexists. split; [exact Hargs|].
  intros i p Hp. rewrite (lookup_specs _ _ _ Hp).
  split; [|split]; intros; by match goal with
                              | H : annotation p = _ |- _ => rewrite H
                              end.
Qed.

Lemma tool_argument_type_labels_witness :
  exists specs,
    getattr (tool calculator ∅).2 first_loc "arguments" = Ok (VList specs)
    /\ forall i p,
         parameters two_ints !! i = Some p ->
         (forall short_name,
             annotation p = Named short_name ->
             specs !! i = Some (VTuple [VStr (name p); VStr short_name]))
         /\ (forall text,
                annotation p = Unnamed text ->
                specs !! i = Some (VTuple [VStr (name p); VStr text]))
         /\ (forall short_name text,
                annotation p = Aliased short_name text ->
                specs !! i = Some (VTuple [VStr (name p); VStr short_name])).
Proof.
  apply (tool_argument_type_labels calculator two_ints ∅
           (tool calculator ∅).2 first_loc); reflexivity.
Defined.

(** ** Invocation of what is not callable *)

(** X13. The constructor accepts a [func] that is not a function; the
    mistake shows only at the first invocation, which raises TypeError
    and changes nothing. *)
Theorem call_of_a_non_callable :
  forall code n d fn a o (h : heap) args kwargs,
    not_callable fn = true ->
    __call__ code (Tool n d fn a o h).1 args kwargs (Tool n d fn a o h).2
    = (Raise TypeError, (Tool n d fn a o h).2).
Proof.
  intros code n d fn a o h args kwargs Hfn.
  destruct (names_self kwargs) eqn:Hself; [by apply call_keyword_self|].
  rewrite (call_delegates code _ _ fn); [| |exact Hself].
  - unfold call. destruct (distinct (map fst kwargs)); by destruct fn.
  - rewrite Tool_loc. apply Tool_getattr.
Qed.

Lemma call_of_a_non_callable_witness :
  (__call__ example_code
     (Tool (VStr "t") (VStr "d") (VStr "not a function") (VList [])
           (VStr "o") ∅).1 [] []
     (Tool (VStr "t") (VStr "d") (VStr "not a function") (VList [])
           (VStr "o") ∅).2).1
  = Raise TypeError.
Proof.
  rewrite (call_of_a_non_callable example_code (VStr "t") (VStr "d")
             (VStr "not a function") (VList []) (VStr "o") ∅ [] []);
    reflexivity.
Defined.

(** ** The calculator of the notebook *)

(** X14. Invoked on two integers, in any mix of positional and keyword
    arguments, the [calculator] Tool returns their product, of any size,
    and changes nothing. *)
Theorem calculator_multiplies :
  forall (h : heap) self (a b : Z),
    getattr h self "func" = Ok (VFunc calculator) ->
    __call__ example_code self [VInt a; VInt b] [] h = (Ok (VInt (a * b)), h)
    /\ __call__ example_code self [VInt a] [("b", VInt b)] h
       = (Ok (VInt (a * b)), h)
    /\ __call__ example_code self [] [("a", VInt a); ("b", VInt b)] h
       = (Ok (VInt (a * b)), h)
    /\ __call__ example_code self [] [("b", VInt b); ("a", VInt a)] h
       = (Ok (VInt (a * b)), h).
Proof.
  intros h self a b Hfn.
  rewrite !(call_delegates _ _ _ _ _ _ Hfn) by reflexivity.
  repeat split; reflexivity.
Qed.

Lemma calculator_multiplies_witness :
  __call__ example_code first_loc [] [("b", VInt (-6)); ("a", VInt 7)]
    (tool calculator ∅).2
  = (Ok (VInt (-42)), (tool calculator ∅).2).
Proof.
  apply (calculator_multiplies (tool calculator ∅).2 first_loc 7 (-6)).
  reflexivity.
Defined.

(** X15. Invoked with positional arguments only, the [calculator] Tool
    raises TypeError unless there are exactly two, and changes nothing. *)
Theorem calculator_wrong_arity :
  forall (h : heap) self args,
    getattr h self "func" = Ok (VFunc calculator) ->
    length args <> 2 ->
    __call__ example_code self args [] h = (Raise TypeError, h).
Proof.
  intros h self args Hfn Hlen.
  rewrite (call_delegates _ _ _ _ _ _ Hfn) by reflexivity.
  destruct args as [|x [|y [|z rest]]]; try reflexivity.
  by cbn [length] in Hlen.
Qed.

Lemma calculator_wrong_arity_witness :
  __call__ example_code first_loc [VInt 3] [] (tool calculator ∅).2
  = (Raise TypeError, (tool calculator ∅).2).
Proof.
  apply (calculator_wrong_arity (tool calculator ∅).2 first_loc [VInt 3]).
  - reflexivity.
  - simpl. lia.
Defined.

(** X16. The annotations are not enforced at invocation: given a
    string and an integer count, the [calculator] Tool returns the string
    repeated that many times when the count fits an index and the result
    has at most 2^63 - 1 characters, the empty string for a count of zero
    or less that fits an index, and raises OverflowError for a count that
    does not fit, whatever its sign. *)
Theorem calculator_repeats_strings :
  forall (h : heap) self (s : string) (n : Z),
    getattr h self "func" = Ok (VFunc calculator) ->
    ((- 2 ^ 63 <= n <= 2 ^ 63 - 1)%Z ->
     (Z.of_nat (length (code_points s)) * n <= 2 ^ 63 - 1)%Z ->
     __call__ example_code self [VStr s; VInt n] [] h
     = (Ok (VStr (repeat_string (Z.to_nat n) s)), h))
    /\ ((- 2 ^ 63 <= n <= 0)%Z ->
        __call__ example_code self [VStr s; VInt n] [] h
        = (Ok (VStr EmptyString), h))
    /\ ((n < - 2 ^ 63 \/ 2 ^ 63 - 1 < n)%Z ->
        __call__ example_code self [VStr s; VInt n] [] h
        = (Raise OverflowError, h)).
Proof.
  intros h self s n Hfn.
  rewrite (call_delegates _ _ _ _ _ _ Hfn) by reflexivity.
  change (call example_code (VFunc calculator) [VStr s; VInt n] [] h)
    with (repeat_sequence (VStr s) n, h).
  unfold repeat_sequence, PY_SSIZE_T_MAX.
  assert (forall m : Z, (m <= 2 ^ 63 - 1)%Z -> (2 ^ 63 - 1 <? m)%Z = false)
    as Hfits by (intros; by apply Z.ltb_ge).
  split; [|split].
  - intros [Hlo Hhi] Hlen.
    replace (n <? - (2 ^ 63 - 1) - 1)%Z with false
      by (symmetry; apply Z.ltb_ge; lia).
    by rewrite !Hfits.
  - intros [Hlo Hhi].
    replace (n <? - (2 ^ 63 - 1) - 1)%Z with false
      by (symmetry; apply Z.ltb_ge; lia).
    rewrite !Hfits by nia.
    by replace (Z.to_nat n) with 0%nat by lia.
  - intros [Hlo | Hhi].
    + by replace (n <? - (2 ^ 63 - 1) - 1)%Z with true
        by (symmetry; apply Z.ltb_lt; lia).
    + replace (2 ^ 63 - 1 <? n)%Z with true
        by (symmetry; apply Z.ltb_lt; lia).
      by rewrite orb_true_r.
Qed.

Lemma calculator_repeats_strings_witness :
  __call__ example_code first_loc [VStr "ab"; VInt 3] [] (tool calculator ∅).2
  = (Ok (VStr "ababab"), (tool calculator ∅).2)
  /\ __call__ example_code first_loc [VStr "ab"; VInt (- 2 ^ 64)] []
       (tool calculator ∅).2
     = (Raise OverflowError, (tool calculator ∅).2).
Proof.
  assert (getattr (tool calculator ∅).2 first_loc "func"
          = Ok (VFunc calculator)) as Hfn by (vm_compute; reflexivity).
  split.
  - apply (proj1 (calculator_repeats_strings (tool calculator ∅).2 first_loc
                    "ab" 3 Hfn)); [lia | vm_compute; discriminate].
  - apply (proj2 (proj2 (calculator_repeats_strings (tool calculator ∅).2
                           first_loc "ab" (- 2 ^ 64) Hfn))).
    left. lia.
Defined.
